(** * Metrics derivation of the 5G NR scenario driver

    Shallow embedding of [src/server/ns3/nr-simulation.cc]: the flow
    aggregation of [ThroughputMonitor] and the analytic fallback at the end
    of [main].  C++ [double] is IEEE-754 binary64; it is modelled by the
    [spec_float] operations of the standard library at precision 53 and
    maximal exponent 1024, so every sum, product, quotient and comparison
    below rounds as the compiled program does under the default rounding
    mode (to nearest, ties to even) when the compiler evaluates each
    operation in binary64 and fuses none of them.

    The driver keeps its parameters and its two metrics in globals; the
    model passes them around as one record.  [gOutputPath] takes no part in
    the computation and is left out, as are the calls that set up and run
    the simulator: the flow statistics it produces are an input. *)

From Stdlib Require Import ZArith List Ascii String Bool Lia.
From Stdlib Require Import Floats.SpecFloat.
Import ListNotations.

Local Open Scope Z_scope.

(** ** binary64 arithmetic *)

Module Double.

Definition prec : Z := 53.
Definition emax : Z := 1024.

Definition double : Type := spec_float.

(** Conversion of an integer to [double] (round to nearest, ties to
    even), as C++ does for an integer operand of a [double] operation. *)
Definition of_Z (z : Z) : double := binary_normalize prec emax z 0 false.

Definition add : double -> double -> double := SFadd prec emax.
Definition sub : double -> double -> double := SFsub prec emax.
Definition mul : double -> double -> double := SFmul prec emax.
Definition div : double -> double -> double := SFdiv prec emax.

Definition ltb : double -> double -> bool := SFltb.
Definition leb : double -> double -> bool := SFleb.
Definition eqb : double -> double -> bool := SFeqb.

(** A decimal literal [num / den]: the compiler rounds the decimal value
    to the nearest double, which is what the correctly rounded quotient
    of two exactly representable integers gives. *)
Definition decimal (num den : Z) : double := div (of_Z num) (of_Z den).

Definition zero : double := S754_zero false.
Definition pinf : double := S754_infinity false.

Definition is_zero (x : double) : bool :=
  match x with S754_zero _ => true | _ => false end.

End Double.

Declare Scope double_scope.
Delimit Scope double_scope with D.
Bind Scope double_scope with Double.double.
Infix "+" := Double.add : double_scope.
Infix "-" := Double.sub : double_scope.
Infix "*" := Double.mul : double_scope.
Infix "/" := Double.div : double_scope.
Infix "<?" := Double.ltb : double_scope.
Infix "<=?" := Double.leb : double_scope.

Abbreviation double := Double.double.

Section Literals.
Import Double.

(** The literals of the source, each as the double the compiler emits. *)
Definition lit_0 : double := of_Z 0.
Definition lit_1 : double := of_Z 1.
Definition lit_2 : double := of_Z 2.
Definition lit_4 : double := of_Z 4.
Definition lit_8 : double := of_Z 8.
Definition lit_10 : double := of_Z 10.
Definition lit_20 : double := of_Z 20.
Definition lit_1000 : double := of_Z 1000.
Definition lit_6e9 : double := of_Z 6000000000.
Definition lit_100e6 : double := of_Z 100000000.
Definition lit_0_8 : double := decimal 8 10.
Definition lit_0_95 : double := decimal 95 100.
Definition lit_0_85 : double := decimal 85 100.
Definition lit_0_001 : double := decimal 1 1000.
Definition lit_0_0005 : double := decimal 5 10000.
End Literals.

(** ** Flow statistics

    [FlowMonitor::FlowStats] is declared by ns-3.  The fields the driver
    reads are kept: the two counters are unsigned integers ([uint64_t]
    bytes, [uint32_t] packets), and each [Time] field holds the double that
    its [GetSeconds ()] accessor returns, which is the only way the driver
    looks at it. *)

Definition FlowId : Type := Z.

Record FlowStats : Type := {
  timeFirstTxPacket : double;
  timeLastRxPacket : double;
  delaySum : double;
  rxBytes : Z;
  rxPackets : Z
}.

(** Range of the two counters. *)
Definition FlowStats_wf (fs : FlowStats) : Prop :=
  0 <= rxBytes fs < 2 ^ 64 /\ 0 <= rxPackets fs < 2 ^ 32.

(** ** Globals of the driver *)

Record Globals : Type := {
  gFrequency : double;
  gBandwidth : double;
  gDuplexMode : string;
  gTxPower : double;
  gThroughput : double;
  gLatency : double
}.

Definition set_metrics (g : Globals) (thr lat : double) : Globals :=
  {| gFrequency := gFrequency g;
     gBandwidth := gBandwidth g;
     gDuplexMode := gDuplexMode g;
     gTxPower := gTxPower g;
     gThroughput := thr;
     gLatency := lat |}.

(** ** Divisions and their operands

    A division of doubles never traps: a zero divisor yields an infinity or
    a NaN.  To speak about which divisions the aggregation executes, and on
    which operands, every division of [ThroughputMonitor] is recorded in a
    trace next to the value it computes. *)

Inductive div_site : Type :=
| DivElapsed   (* rxBytes * 8.0 / (timeLastRxPacket - timeFirstTxPacket) *)
| DivKilo      (* ... / 1000 *)
| DivPackets   (* delaySum / rxPackets *)
| DivHalf.     (* (gLatency + latency) / 2.0 *)

Record div_event : Type := {
  site : div_site;
  dividend : double;
  divisor : double
}.

Definition div_site_eqb (a b : div_site) : bool :=
  match a, b with
  | DivElapsed, DivElapsed | DivKilo, DivKilo
  | DivPackets, DivPackets | DivHalf, DivHalf => true
  | _, _ => false
  end.

Definition Traced (A : Type) : Type := (A * list div_event)%type.

Definition ret {A : Type} (a : A) : Traced A := (a, []).

Definition bind {A B : Type} (c : Traced A) (k : A -> Traced B) : Traced B :=
  let (b, t) := k (fst c) in (b, snd c ++ t).

Definition value {A : Type} (c : Traced A) : A := fst c.
Definition trace {A : Type} (c : Traced A) : list div_event := snd c.

Notation "x <- c ;; k" := (bind c (fun x => k))
  (at level 61, c at next level, right associativity).

Definition fdiv (s : div_site) (a b : double) : Traced double :=
  (Double.div a b, [{| site := s; dividend := a; divisor := b |}]).

(** ** ThroughputMonitor (lines 36-62) *)

Section Aggregation.
Import Double.
Local Open Scope double_scope.

(** [timeLastRxPacket.GetSeconds() - timeFirstTxPacket.GetSeconds()] *)
Definition elapsed (fs : FlowStats) : double :=
  timeLastRxPacket fs - timeFirstTxPacket fs.

(** Body of the [for] loop for one entry of the map; the state is the
    local [totalThroughput] and the global [gLatency]. *)
Definition flow_body (fs : FlowStats) (st : double * double)
  : Traced (double * double) :=
  let (totalThroughput, lat) := st in
  if (0 <? rxBytes fs)%Z then
    q <- fdiv DivElapsed (of_Z (rxBytes fs) * lit_8) (elapsed fs) ;;
    throughput <- fdiv DivKilo q lit_1000 ;;
    let totalThroughput := totalThroughput + throughput in
    if (0 <? rxPackets fs)%Z then
      latency <- fdiv DivPackets (delaySum fs) (of_Z (rxPackets fs)) ;;
      lat' <- fdiv DivHalf (lat + latency) lit_2 ;;
      ret (totalThroughput, lat')
    else ret (totalThroughput, lat)
  else ret st.

(** The loop over [stats], in the iteration order of the map. *)
Fixpoint flow_loop (stats : list (FlowId * FlowStats)) (st : double * double)
  : Traced (double * double) :=
  match stats with
  | [] => ret st
  | i :: rest => st' <- flow_body (snd i) st ;; flow_loop rest st'
  end.

Definition ThroughputMonitor (stats : list (FlowId * FlowStats)) (g : Globals)
  : Traced Globals :=
  st <- flow_loop stats (lit_0, gLatency g) ;;
  ret (set_metrics g (fst st * lit_1000) (snd st)).

End Aggregation.

(** ** Fallback of [main] (lines 209-220)

    [log2] and [pow] are the functions of the C mathematical library; the
    driver only calls them, so they are parameters here. *)

Section Fallback.
Import Double.
Local Open Scope double_scope.

Variable log2 : double -> double.
Variable pow : double -> double -> double.

Definition is_TDD (g : Globals) : bool := String.eqb (gDuplexMode g) "TDD".

Definition main_fallback (g : Globals) : Globals :=
  if gThroughput g <=? lit_0 then
    let snr := lit_10 + (gTxPower g - lit_20) / lit_2 in
    let spectralEfficiency := log2 (lit_1 + pow lit_10 (snr / lit_10)) in
    let duplexEfficiency := if is_TDD g then lit_0_8 else lit_0_95 in
    let mimoFactor := if gFrequency g <? lit_6e9 then lit_4 else lit_8 in
    let overheadFactor := lit_0_85 in
    set_metrics g
      (gBandwidth g * spectralEfficiency * duplexEfficiency * mimoFactor
       * overheadFactor)
      (lit_0_001 + (if is_TDD g then lit_0_0005 else lit_0)
       + (lit_100e6 / gBandwidth g) * lit_0_0005)
  else g.

End Fallback.

(** The run of [main] after the simulator stops: the final call of
    [ThroughputMonitor] and then the fallback. *)
Definition main_metrics (log2 : double -> double) (pow : double -> double -> double)
  (stats : list (FlowId * FlowStats)) (g : Globals) : Globals :=
  main_fallback log2 pow (value (ThroughputMonitor stats g)).

(** ** Quantities named by the specification *)

Section SpecQuantities.
Import Double.
Local Open Scope double_scope.

(** Per-flow throughput contribution [rxBytes * 8 / dt / 1000]. *)
Definition contribution (fs : FlowStats) : double :=
  of_Z (rxBytes fs) * lit_8 / elapsed fs / lit_1000.

(** Per-flow latency [delaySum / rxPackets]. *)
Definition flowLatency (fs : FlowStats) : double :=
  delaySum fs / of_Z (rxPackets fs).

(** One step of the latency recurrence. *)
Definition latency_update (l x : double) : double := (l + x) / lit_2.

Definition has_bytes (fs : FlowStats) : bool := (0 <? rxBytes fs)%Z.
Definition has_packets (fs : FlowStats) : bool := (0 <? rxPackets fs)%Z.
Definition positive_elapsed (fs : FlowStats) : bool := lit_0 <? elapsed fs.

(** Sum of the contributions of a sequence of records, from the left,
    starting at [0.0]. *)
Definition sum_contributions (l : list FlowStats) : double :=
  fold_left add (map contribution l) lit_0.

(** The throughput as the specification words it: records need
    [rxBytes > 0] and a positive elapsed time. *)
Definition spec_throughput (stats : list (FlowId * FlowStats)) : double :=
  sum_contributions
    (filter (fun fs => has_bytes fs && positive_elapsed fs) (map snd stats))
  * lit_1000.

(** The throughput summed over every record with [rxBytes > 0]. *)
Definition bytes_throughput (stats : list (FlowId * FlowStats)) : double :=
  sum_contributions (filter has_bytes (map snd stats)) * lit_1000.

(** The latency recurrence run over a sequence of records. *)
Definition fold_latency (l : list FlowStats) (l0 : double) : double :=
  fold_left latency_update (map flowLatency l) l0.

(** The latency as the specification words it: one update for every
    record with [rxPackets > 0]. *)
Definition spec_latency (stats : list (FlowId * FlowStats)) (l0 : double)
  : double :=
  fold_latency (filter has_packets (map snd stats)) l0.

(** The latency with one update for every record that has both bytes and
    packets. *)
Definition gated_latency (stats : list (FlowId * FlowStats)) (l0 : double)
  : double :=
  fold_latency (filter (fun fs => has_bytes fs && has_packets fs) (map snd stats)) l0.

Definition count_site (s : div_site) (t : list div_event) : nat :=
  List.length (filter (fun ev => div_site_eqb (site ev) s) t).

Definition zero_division (ev : div_event) : bool := is_zero (divisor ev).

(** The fallback formulas with the intermediate names substituted. *)
Definition spec_fallback_throughput
  (log2 : double -> double) (pow : double -> double -> double)
  (bandwidthHz txPowerDbm frequencyHz : double) (tdd : bool) : double :=
  bandwidthHz
  * log2 (lit_1 + pow lit_10 ((lit_10 + (txPowerDbm - lit_20) / lit_2) / lit_10))
  * (if tdd then lit_0_8 else lit_0_95)
  * (if frequencyHz <? lit_6e9 then lit_4 else lit_8)
  * lit_0_85.

Definition spec_fallback_latency (bandwidthHz : double) (tdd : bool) : double :=
  lit_0_001 + (if tdd then lit_0_0005 else lit_0)
  + (lit_100e6 / bandwidthHz) * lit_0_0005.

(** The events a record leaves in the trace. *)
Definition elapsed_event (fs : FlowStats) : div_event :=
  {| site := DivElapsed; dividend := of_Z (rxBytes fs) * lit_8; divisor := elapsed fs |}.
Definition kilo_event (fs : FlowStats) : div_event :=
  {| site := DivKilo; dividend := of_Z (rxBytes fs) * lit_8 / elapsed fs;
     divisor := lit_1000 |}.
Definition packets_event (fs : FlowStats) : div_event :=
  {| site := DivPackets; dividend := delaySum fs; divisor := of_Z (rxPackets fs) |}.
Definition half_event (fs : FlowStats) (l : double) : div_event :=
  {| site := DivHalf; dividend := l + flowLatency fs; divisor := lit_2 |}.

(** The latency left by one call of [ThroughputMonitor]. *)
Definition latency_after (stats : list (FlowId * FlowStats)) (g : Globals) : double :=
  gLatency (value (ThroughputMonitor stats g)).

(** [x] is infinite or finite and non-zero, of sign [s], with an exponent
    of at least [lo]. *)
Definition signed_nonzero (s : bool) (lo : Z) (x : double) : Prop :=
  x = S754_infinity s \/ exists m e, x = S754_finite s m e /\ lo <= e.

End SpecQuantities.

(** ** Sample data *)

Definition mkflow (rb rp : Z) (tf tl ds : double) : FlowStats :=
  {| timeFirstTxPacket := tf; timeLastRxPacket := tl; delaySum := ds;
     rxBytes := rb; rxPackets := rp |}.

(** The defaults of the driver: 3.5 GHz, 20 MHz, TDD, 20 dBm, and both
    metrics at [0.0]. *)
Definition default_globals : Globals :=
  {| gFrequency := Double.of_Z 3500000000;
     gBandwidth := Double.of_Z 20000000;
     gDuplexMode := "TDD";
     gTxPower := lit_20;
     gThroughput := lit_0;
     gLatency := lit_0 |}.

(** 150000 bytes in 100 packets between 0 s and 1 s, 1 s of summed delay. *)
Definition flow_150k : FlowStats := mkflow 150000 100 lit_0 lit_1 lit_1.

(** A flow whose last reception carries the time stamp of its first
    transmission. *)
Definition flow_instant : FlowStats := mkflow 1500 1 lit_1 lit_1 lit_1.

(** A record with a packet counted and no byte. *)
Definition flow_empty_packet : FlowStats := mkflow 0 1 lit_0 lit_1 lit_1.

(** Two flows whose per-packet latencies are the neighbouring doubles 1.5
    and 1.5 + 2^-52, and two whose latencies are 1 and 2. *)
Definition flow_lat_15 : FlowStats := mkflow 1500 1 lit_0 lit_1 (Double.decimal 3 2).
Definition flow_lat_15_next : FlowStats :=
  mkflow 1500 1 lit_0 lit_1 (S754_finite false 6755399441055745 (-52)).
Definition flow_lat_1 : FlowStats := mkflow 1500 1 lit_0 lit_1 lit_1.
Definition flow_lat_2 : FlowStats := mkflow 1500 1 lit_0 lit_1 lit_2.

(** The values of the mathematical library at the points the worked
    example of the fallback touches: [pow (10, 1) = 10] and
    [log2 (11) = 0x1.bacea7c065d42p+1], about 3.4594316186372973.  Any
    other argument is answered by a NaN. *)
Definition sample_pow (x y : double) : double :=
  if Double.eqb y lit_1 then x else S754_nan.

Definition sample_log2 (x : double) : double :=
  if Double.eqb x (Double.of_Z 11)
  then S754_finite false 7789947474304322 (-51)
  else S754_nan.

(** The defaults moved to 28 GHz and 30 dBm. *)
Definition mmwave_globals : Globals :=
  {| gFrequency := Double.of_Z 28000000000;
     gBandwidth := gBandwidth default_globals;
     gDuplexMode := gDuplexMode default_globals;
     gTxPower := Double.of_Z 30;
     gThroughput := lit_0;
     gLatency := lit_1 |}.

(** ** The calls of [main]

    [main] schedules one call of [ThroughputMonitor] at 1 s of simulated
    time (line 200), runs the simulator for 2 s, calls
    [ThroughputMonitor] once more (line 207) and then applies the fallback.
    The two snapshots of the flow statistics are the inputs. *)
Definition main_run (log2 : double -> double) (pow : double -> double -> double)
  (at_1s final : list (FlowId * FlowStats)) (g : Globals) : Globals :=
  main_fallback log2 pow
    (value (ThroughputMonitor final (value (ThroughputMonitor at_1s g)))).

(** ** Classes of doubles *)

(** Neither a NaN nor below zero: a zero of either sign, a positive finite
    number or [+infinity]. *)
Definition nonneg (x : double) : bool :=
  match x with
  | S754_zero _ | S754_finite false _ _ | S754_infinity false => true
  | _ => false
  end.

Definition positive_finite (x : double) : bool :=
  match x with S754_finite false _ _ => true | _ => false end.

(** A zero, a finite number or an infinity of sign [s]. *)
Definition has_sign (s : bool) (x : double) : Prop :=
  x = S754_zero s \/ x = S754_infinity s \/ exists m e, x = S754_finite s m e.

(** The four parameters of the scenario. *)
Definition same_config (g1 g2 : Globals) : Prop :=
  gFrequency g1 = gFrequency g2 /\ gBandwidth g1 = gBandwidth g2
  /\ gDuplexMode g1 = gDuplexMode g2 /\ gTxPower g1 = gTxPower g2.

Definition set_duplex (g : Globals) (d : string) : Globals :=
  {| gFrequency := gFrequency g;
     gBandwidth := gBandwidth g;
     gDuplexMode := d;
     gTxPower := gTxPower g;
     gThroughput := gThroughput g;
     gLatency := gLatency g |}.

Definition set_frequency (g : Globals) (f : double) : Globals :=
  {| gFrequency := f;
     gBandwidth := gBandwidth g;
     gDuplexMode := gDuplexMode g;
     gTxPower := gTxPower g;
     gThroughput := gThroughput g;
     gLatency := gLatency g |}.

Definition set_bandwidth (g : Globals) (b : double) : Globals :=
  {| gFrequency := gFrequency g;
     gBandwidth := b;
     gDuplexMode := gDuplexMode g;
     gTxPower := gTxPower g;
     gThroughput := gThroughput g;
     gLatency := gLatency g |}.

(** Below zero or a zero: the values that the test [gThroughput <= 0]
    accepts. *)
Definition nonpositive (x : double) : bool :=
  match x with
  | S754_zero _ | S754_finite true _ _ | S754_infinity true => true
  | _ => false
  end.

(** ** WriteResultsToJson (lines 64-78)

    The function writes one text to the file [outputPath]; the model
    returns that text.  String literals and the [std::string] of the duplex
    mode go to the stream as they are; a [double] goes through the
    formatting of [std::ostream], which is a parameter here. *)

Definition dq : string := String "034"%char EmptyString.
Definition nl : string := String "010"%char EmptyString.

Section Writer.
Local Open Scope string_scope.

Variable show : double -> string.

Definition WriteResultsToJson (g : Globals) (throughput latency : double) : string :=
  ("{" ++ nl)
  ++ ("  " ++ dq ++ "frequency" ++ dq ++ ": ") ++ show (gFrequency g) ++ ("," ++ nl)
  ++ ("  " ++ dq ++ "bandwidth" ++ dq ++ ": ") ++ show (gBandwidth g) ++ ("," ++ nl)
  ++ ("  " ++ dq ++ "duplexMode" ++ dq ++ ": " ++ dq) ++ gDuplexMode g
     ++ (dq ++ "," ++ nl)
  ++ ("  " ++ dq ++ "transmitPower" ++ dq ++ ": ") ++ show (gTxPower g) ++ ("," ++ nl)
  ++ ("  " ++ dq ++ "results" ++ dq ++ ": {" ++ nl)
  ++ ("    " ++ dq ++ "throughput" ++ dq ++ ": ") ++ show throughput ++ ("," ++ nl)
  ++ ("    " ++ dq ++ "latency" ++ dq ++ ": ") ++ show latency ++ nl
  ++ ("  }" ++ nl)
  ++ ("}" ++ nl).

End Writer.

(** What [main] hands to the writer (line 228): the globals as the two
    calls and the fallback left them. *)
Definition main_document (show : double -> string)
  (log2 : double -> double) (pow : double -> double -> double)
  (at_1s final : list (FlowId * FlowStats)) (g : Globals) : string :=
  let g' := main_run log2 pow at_1s final g in
  WriteResultsToJson show g' (gThroughput g') (gLatency g').

(** [c] occurs in [s]. *)
Fixpoint occurs (c : Ascii.ascii) (s : string) : bool :=
  match s with
  | EmptyString => false
  | String x r => Ascii.eqb x c || occurs c r
  end.

(** A stand-in for the formatting of a double, enough to tell the classes
    apart. *)
Definition sample_show (x : double) : string :=
  match x with
  | S754_zero _ => "0"
  | S754_infinity false => "inf"
  | S754_infinity true => "-inf"
  | S754_nan => "nan"
  | S754_finite false _ _ => "1"
  | S754_finite true _ _ => "-1"
  end.

(** ** Further sample data *)



(** The defaults with a transmit power of -320 dBm. *)
Definition weak_globals : Globals :=
  {| gFrequency := gFrequency default_globals;
     gBandwidth := gBandwidth default_globals;
     gDuplexMode := gDuplexMode default_globals;
     gTxPower := Double.of_Z (-320);
     gThroughput := lit_0;
     gLatency := lit_0 |}.

(** The values of the mathematical library at the points that power
    touches: [pow (10, -16)] is the double 1e-16 and [log2 (1)] is [+0.0].
    Any other argument is answered by a NaN. *)
Definition weak_pow (x y : double) : double :=
  if Double.eqb y (Double.of_Z (-16)) then Double.decimal 1 (10 ^ 16) else S754_nan.

Definition weak_log2 (x : double) : double :=
  if Double.eqb x lit_1 then Double.zero else S754_nan.

(** * Properties *)

(** ** Worked values *)

(** The decimal literals that are no binary fractions, as the bit patterns
    a compiler emits: 0.8 is 0x1.999999999999ap-1, 0.95 is
    0x1.e666666666666p-1, 0.85 is 0x1.b333333333333p-1, and 0.001 and
    0.0005 share the significand 0x1.0624dd2f1a9fc. *)
Example decimal_literals :
  lit_0_8 = S754_finite false 7205759403792794 (-53)
  /\ lit_0_95 = S754_finite false 8556839292003942 (-53)
  /\ lit_0_85 = S754_finite false 7656119366529843 (-53)
  /\ lit_0_001 = S754_finite false 4611686018427388 (-62)
  /\ lit_0_0005 = S754_finite false 4611686018427388 (-63).
Proof. repeat split. Qed.

(** The largest [uint64_t] converts to 2^64. *)
Example of_Z_uint64_max :
  Double.of_Z (2 ^ 64 - 1) = S754_finite false 4503599627370496 12.
Proof. reflexivity. Qed.

(** The sample records respect the ranges of their counters. *)
Example samples_wf :
  Forall FlowStats_wf
    [flow_150k; flow_instant; flow_empty_packet;
     flow_lat_15; flow_lat_15_next; flow_lat_1; flow_lat_2].
Proof. repeat constructor; cbn; lia. Qed.

(** One call on the flow of 150000 bytes and 100 packets: 1.2e6 bit/s, and
    the latency moves from 0 to (0 + 1/100) / 2. *)
Example monitor_flow_150k :
  value (ThroughputMonitor [(1, flow_150k)] default_globals)
  = set_metrics default_globals (Double.of_Z 1200000)
      (Double.div (Double.decimal 1 100) lit_2).
Proof. reflexivity. Qed.

(** A run without any flow ends in the fallback, and a run whose only flow
    has no elapsed time reports an infinite throughput, which the fallback
    lets through. *)
Example main_without_flows :
  gLatency (main_metrics sample_log2 sample_pow [] default_globals)
  = Double.decimal 4 1000.
Proof. reflexivity. Qed.

Example main_flow_instant :
  gThroughput (main_metrics sample_log2 sample_pow [(1, flow_instant)] default_globals)
  = Double.pinf.
Proof. reflexivity. Qed.

(** ** Rounding never loses a non-zero value above the underflow range *)

Section RoundingFacts.
Import Double.

Lemma shr_1_positive (mrs : shr_record) (m : positive) :
  shr_m mrs = Zpos m -> 1 < Zpos (digits2_pos m) ->
  exists m', shr_m (shr_1 mrs) = Zpos m'
             /\ Zpos (digits2_pos m') = Zpos (digits2_pos m) - 1.
Proof.
  destruct mrs as [mm r s]; cbn [shr_m]; intros -> Hd.
  destruct m as [q | q | ]; cbn [shr_1 shr_m digits2_pos] in *;
    [exists q | exists q | lia]; split; auto; lia.
Qed.

Lemma iter_shr_1_positive (k : positive) :
  forall (mrs : shr_record) (m : positive),
    shr_m mrs = Zpos m -> Zpos k < Zpos (digits2_pos m) ->
    exists m', shr_m (iter_pos shr_1 k mrs) = Zpos m'
               /\ Zpos (digits2_pos m') = Zpos (digits2_pos m) - Zpos k.
Proof.
  induction k as [k IH | k IH | ]; intros mrs m Hm Hk; cbn [iter_pos].
  - destruct (shr_1_positive mrs m Hm) as (m1 & H1 & D1); [lia |].
    destruct (IH _ _ H1) as (m2 & H2 & D2); [lia |].
    destruct (IH _ _ H2) as (m3 & H3 & D3); [lia |].
    exists m3; split; auto; lia.
  - destruct (IH _ _ Hm) as (m2 & H2 & D2); [lia |].
    destruct (IH _ _ H2) as (m3 & H3 & D3); [lia |].
    exists m3; split; auto; lia.
  - apply shr_1_positive; auto.
Qed.

Lemma shr_m_of_loc (m : Z) (l : location) :
  shr_m (shr_record_of_loc m l) = m.
Proof. destruct l as [ | [ | | ]]; reflexivity. Qed.

Lemma shr_fexp_positive (m : positive) (e : Z) (l : location) :
  emin prec emax <= e ->
  exists m' e', shr_m (fst (shr_fexp prec emax (Zpos m) e l)) = Zpos m'
                /\ snd (shr_fexp prec emax (Zpos m) e l) = e' /\ e <= e'.
Proof.
  intros He. unfold shr_fexp, shr.
  set (n := fexp prec emax (Zdigits2 (Zpos m) + e) - e).
  assert (Hn : n < Zpos (digits2_pos m)).
  { subst n. unfold fexp, emin, prec, emax in *. simpl Zdigits2. lia. }
  destruct n as [ | k | k ] eqn:En; simpl.
  - exists m, e. rewrite shr_m_of_loc. repeat split; lia.
  - destruct (iter_shr_1_positive k (shr_record_of_loc (Zpos m) l) m)
      as (m' & H' & _); [apply shr_m_of_loc | exact Hn |].
    exists m', (e + Zpos k). repeat split; auto; lia.
  - exists m, e. rewrite shr_m_of_loc. repeat split; lia.
Qed.

Lemma round_nearest_even_positive (m : positive) (l : location) :
  exists m', round_nearest_even (Zpos m) l = Zpos m'.
Proof.
  destruct l as [ | [ | | ]]; cbn [round_nearest_even];
    try destruct (Z.even (Zpos m)); solve [exists m; reflexivity | exists (m + 1)%positive; reflexivity].
Qed.

Lemma binary_round_aux_nonzero (sx : bool) (m : positive) (e : Z) (l : location) :
  emin prec emax <= e ->
  signed_nonzero sx e (binary_round_aux prec emax sx (Zpos m) e l).
Proof.
  intros He. unfold binary_round_aux.
  destruct (shr_fexp_positive m e l He) as (m1 & e1 & H1 & E1 & L1).
  destruct (shr_fexp prec emax (Zpos m) e l) as [mrs1 e1']; simpl in *; subst e1'.
  rewrite H1.
  destruct (round_nearest_even_positive m1 (loc_of_shr_record mrs1)) as (m2 & ->).
  destruct (shr_fexp_positive m2 e1 loc_Exact) as (m3 & e3 & H3 & E3 & L3); [lia |].
  destruct (shr_fexp prec emax (Zpos m2) e1 loc_Exact) as [mrs3 e3']; simpl in *; subst e3'.
  rewrite H3.
  destruct (Z.leb e3 _); [right | left; reflexivity].
  exists m3, e3; split; auto; lia.
Qed.

Lemma of_Z_positive (p : positive) : signed_nonzero false (-52) (of_Z (Zpos p)).
Proof.
  unfold of_Z, binary_normalize, binary_round, shl_align.
  set (x := fexp prec emax (Zpos (digits2_pos p) + 0)).
  assert (Hx : -52 <= x) by (subst x; unfold fexp, emin, prec, emax; lia).
  assert (Hmin : emin prec emax = -1074) by reflexivity.
  destruct (x - 0) as [ | d | d ] eqn:Ed.
  - destruct (binary_round_aux_nonzero false p 0 loc_Exact) as [H | (m & e & H & L)];
      [lia | left; auto | right; exists m, e; split; auto; lia].
  - destruct (binary_round_aux_nonzero false p 0 loc_Exact) as [H | (m & e & H & L)];
      [lia | left; auto | right; exists m, e; split; auto; lia].
  - destruct (binary_round_aux_nonzero false (Pos.iter xO p d) x loc_Exact)
      as [H | (m & e & H & L)];
      [lia | left; auto | right; exists m, e; split; auto; lia].
Qed.

Lemma mul_nonzero (sx sy : bool) (lx ly : Z) (x y : double) :
  signed_nonzero sx lx x -> signed_nonzero sy ly y ->
  emin prec emax <= lx + ly ->
  signed_nonzero (xorb sx sy) (lx + ly) (mul x y).
Proof.
  intros [-> | (mx & ex & -> & Lx)] [-> | (my & ey & -> & Ly)] Hl;
    try (left; reflexivity).
  simpl.
  destruct (binary_round_aux_nonzero (xorb sx sy) (mx * my) (ex + ey) loc_Exact)
    as [H | (m & e & H & L)];
    [lia | left; auto | right; exists m, e; split; auto; lia].
Qed.

Lemma div_by_zero (s sz : bool) (lo : Z) (x : double) :
  signed_nonzero s lo x ->
  div x (S754_zero sz) = S754_infinity (xorb s sz).
Proof. intros [-> | (m & e & -> & _)]; reflexivity. Qed.

Lemma signed_nonzero_not_zero (s : bool) (lo : Z) (x : double) :
  signed_nonzero s lo x -> is_zero x = false.
Proof. intros [-> | (m & e & -> & _)]; reflexivity. Qed.

Lemma sub_self_finite (s : bool) (m : positive) (e : Z) :
  sub (S754_finite s m e) (S754_finite s m e) = zero.
Proof.
  unfold sub, SFsub.
  destruct s; simpl cond_Zopp; rewrite Z.sub_diag; reflexivity.
Qed.

End RoundingFacts.

(** ** The trace monad and the loop *)

Section LoopFacts.
Import Double.
Local Open Scope double_scope.

Lemma value_bind {A B : Type} (c : Traced A) (k : A -> Traced B) :
  value (x <- c ;; k x) = value (k (value c)).
Proof. unfold bind, value. destruct (k (fst c)); reflexivity. Qed.

Lemma trace_bind {A B : Type} (c : Traced A) (k : A -> Traced B) :
  trace (x <- c ;; k x) = trace c ++ trace (k (value c)).
Proof. unfold bind, value, trace. destruct (k (fst c)); reflexivity. Qed.

Lemma flow_body_value (fs : FlowStats) (t l : double) :
  value (flow_body fs (t, l)) =
  if has_bytes fs
  then (t + contribution fs,
        if has_packets fs then latency_update l (flowLatency fs) else l)
  else (t, l).
Proof.
  unfold flow_body, has_bytes, has_packets.
  destruct (0 <? rxBytes fs)%Z; [| reflexivity].
  destruct (0 <? rxPackets fs)%Z; reflexivity.
Qed.

Lemma flow_body_trace (fs : FlowStats) (t l : double) :
  trace (flow_body fs (t, l)) =
  if has_bytes fs
  then elapsed_event fs :: kilo_event fs ::
       (if has_packets fs then [packets_event fs; half_event fs l] else [])
  else [].
Proof.
  unfold flow_body, has_bytes, has_packets.
  destruct (0 <? rxBytes fs)%Z; [| reflexivity].
  destruct (0 <? rxPackets fs)%Z; reflexivity.
Qed.

Lemma flow_loop_cons (i : FlowId * FlowStats) (rest : list (FlowId * FlowStats))
  (st : double * double) :
  value (flow_loop (i :: rest) st) = value (flow_loop rest (value (flow_body (snd i) st)))
  /\ trace (flow_loop (i :: rest) st)
     = trace (flow_body (snd i) st)
       ++ trace (flow_loop rest (value (flow_body (snd i) st))).
Proof. cbn [flow_loop]. rewrite value_bind, trace_bind. auto. Qed.

Lemma ThroughputMonitor_value (stats : list (FlowId * FlowStats)) (g : Globals) :
  value (ThroughputMonitor stats g) =
  set_metrics g
    (fst (value (flow_loop stats (lit_0, gLatency g))) * lit_1000)
    (snd (value (flow_loop stats (lit_0, gLatency g)))).
Proof. unfold ThroughputMonitor. rewrite value_bind. reflexivity. Qed.

Lemma ThroughputMonitor_trace (stats : list (FlowId * FlowStats)) (g : Globals) :
  trace (ThroughputMonitor stats g) = trace (flow_loop stats (lit_0, gLatency g)).
Proof.
  unfold ThroughputMonitor. rewrite trace_bind. cbn [ret trace snd].
  apply app_nil_r.
Qed.

(** The loop adds the contributions of the records with bytes, in order. *)
Lemma flow_loop_throughput (stats : list (FlowId * FlowStats)) :
  forall t l,
    fst (value (flow_loop stats (t, l)))
    = fold_left add (map contribution (filter has_bytes (map snd stats))) t.
Proof.
  induction stats as [| [i fs] rest IH]; intros t l; [reflexivity |].
  destruct (flow_loop_cons (i, fs) rest (t, l)) as [-> _].
  cbn [snd map filter]. rewrite flow_body_value.
  destruct (has_bytes fs); cbn [map fold_left]; apply IH.
Qed.

(** The loop runs the latency recurrence over the records that have both
    bytes and packets, in order. *)
Lemma flow_loop_latency (stats : list (FlowId * FlowStats)) :
  forall t l,
    snd (value (flow_loop stats (t, l))) = gated_latency stats l.
Proof.
  unfold gated_latency, fold_latency.
  induction stats as [| [i fs] rest IH]; intros t l; [reflexivity |].
  destruct (flow_loop_cons (i, fs) rest (t, l)) as [-> _].
  cbn [snd map filter]. rewrite flow_body_value.
  destruct (has_bytes fs); cbn [andb]; [| apply IH].
  destruct (has_packets fs); cbn [map fold_left]; apply IH.
Qed.

Lemma count_site_app (s : div_site) (t1 t2 : list div_event) :
  count_site s (t1 ++ t2) = (count_site s t1 + count_site s t2)%nat.
Proof. unfold count_site. rewrite filter_app, length_app. reflexivity. Qed.

Lemma flow_loop_updates (stats : list (FlowId * FlowStats)) :
  forall st,
    count_site DivHalf (trace (flow_loop stats st))
    = List.length (filter (fun fs => has_bytes fs && has_packets fs) (map snd stats)).
Proof.
  induction stats as [| [i fs] rest IH]; intros [t l]; [reflexivity |].
  destruct (flow_loop_cons (i, fs) rest (t, l)) as [_ ->].
  rewrite count_site_app, IH. cbn [snd map filter].
  rewrite flow_body_trace.
  destruct (has_bytes fs); [| reflexivity].
  destruct (has_packets fs); reflexivity.
Qed.

End LoopFacts.

(** ** Flow aggregation *)

Section AggregationClaims.
Import Double.
Local Open Scope double_scope.

Lemma has_bytes_true (fs : FlowStats) : (0 < rxBytes fs)%Z -> has_bytes fs = true.
Proof. intros H. apply Z.ltb_lt, H. Qed.

Lemma has_packets_true (fs : FlowStats) : (0 < rxPackets fs)%Z -> has_packets fs = true.
Proof. intros H. apply Z.ltb_lt, H. Qed.

(** The product [rxBytes * 8.0] of a record with bytes is a positive
    non-zero double. *)
Lemma bytes_times_8_nonzero (fs : FlowStats) :
  (0 < rxBytes fs)%Z -> signed_nonzero false (-101) (of_Z (rxBytes fs) * lit_8).
Proof.
  intros H. destruct (rxBytes fs) as [| p | p]; try lia.
  apply (mul_nonzero false false (-52) (-49)).
  - apply of_Z_positive.
  - right. exists 4503599627370496%positive, (-49)%Z. split; [reflexivity | lia].
  - unfold emin, prec, emax. lia.
Qed.

(** Equal finite time stamps give an elapsed time of [+0.0]. *)
Lemma elapsed_same_instant (fs : FlowStats) (s : bool) (m : positive) (e : Z) :
  timeFirstTxPacket fs = S754_finite s m e ->
  timeLastRxPacket fs = S754_finite s m e ->
  elapsed fs = zero.
Proof. unfold elapsed. intros -> ->. apply sub_self_finite. Qed.

(** C1, as amended.  For every record with [rxBytes > 0] the aggregation
    divides [rxBytes * 8.0] by the elapsed time without looking at it and
    adds the quotient, scaled by 1/1000, to the running total.  When the
    elapsed time is a zero the division by zero is executed; it yields
    the infinity of the sign of that zero, so the record contributes an
    infinity and is not excluded.  A lone such record with elapsed time
    [+0.0], as when its two time stamps are the same finite double, makes
    the reported throughput [+infinity]. *)
Theorem zero_elapsed_contributes_infinity (fs : FlowStats) :
  (0 < rxBytes fs)%Z ->
  (forall t l,
      fst (value (flow_body fs (t, l))) = t + contribution fs
      /\ In (elapsed_event fs) (trace (flow_body fs (t, l))))
  /\ (forall sz, elapsed fs = S754_zero sz ->
                 zero_division (elapsed_event fs) = true
                 /\ contribution fs = S754_infinity sz)
  /\ (forall i g, elapsed fs = zero ->
                  gThroughput (value (ThroughputMonitor [(i, fs)] g)) = pinf)
  /\ (forall i g s m e,
         timeFirstTxPacket fs = S754_finite s m e ->
         timeLastRxPacket fs = S754_finite s m e ->
         gThroughput (value (ThroughputMonitor [(i, fs)] g)) = pinf).
Proof.
  intros Hb.
  assert (Hz : forall sz, elapsed fs = S754_zero sz ->
                          contribution fs = S754_infinity sz).
  { intros sz E. unfold contribution. rewrite E.
    rewrite (div_by_zero false sz (-101) _ (bytes_times_8_nonzero fs Hb)).
    destruct sz; reflexivity. }
  assert (Hone : forall i g, elapsed fs = zero ->
                   gThroughput (value (ThroughputMonitor [(i, fs)] g)) = pinf).
  { intros i g E. rewrite ThroughputMonitor_value. cbn [gThroughput set_metrics].
    rewrite flow_loop_throughput. cbn [map snd filter].
    rewrite (has_bytes_true fs Hb). cbn [map fold_left].
    rewrite (Hz false E). reflexivity. }
  split; [| split; [| split]].
  - intros t l. rewrite flow_body_value, flow_body_trace, (has_bytes_true fs Hb).
    split; [reflexivity | left; reflexivity].
  - intros sz E. split; [| exact (Hz sz E)].
    unfold zero_division, elapsed_event; cbn [divisor]. rewrite E. reflexivity.
  - exact Hone.
  - intros i g s m e Hf Hl. apply Hone. exact (elapsed_same_instant fs s m e Hf Hl).
Qed.

Lemma zero_elapsed_contributes_infinity_witness :
  (0 < rxBytes flow_instant)%Z
  /\ elapsed flow_instant = zero
  /\ gThroughput (value (ThroughputMonitor [(1%Z, flow_instant)] default_globals)) = pinf.
Proof.
  split; [reflexivity |]. split; [reflexivity |].
  apply (zero_elapsed_contributes_infinity flow_instant); reflexivity.
Defined.

(** C1 as stated fails: the record [flow_instant] has bytes and an
    elapsed time of zero, yet it is not excluded: the reported throughput
    is [+infinity], not zero, and the trace holds the division by [+0.0]. *)
Lemma zero_elapsed_not_excluded :
  (0 < rxBytes flow_instant)%Z
  /\ timeLastRxPacket flow_instant = timeFirstTxPacket flow_instant
  /\ (elapsed flow_instant <=? lit_0) = true
  /\ gThroughput (value (ThroughputMonitor [(1%Z, flow_instant)] default_globals))
     = pinf
  /\ In (elapsed_event flow_instant)
       (trace (ThroughputMonitor [(1%Z, flow_instant)] default_globals))
  /\ zero_division (elapsed_event flow_instant) = true
  /\ ~ (gThroughput (value (ThroughputMonitor [(1%Z, flow_instant)] default_globals))
        = lit_0
        /\ Forall (fun ev => zero_division ev = false)
             (trace (ThroughputMonitor [(1%Z, flow_instant)] default_globals))).
Proof.
  split; [reflexivity |]. split; [reflexivity |]. split; [reflexivity |].
  split; [reflexivity |]. split; [left; reflexivity |]. split; [reflexivity |].
  intros [H _]. vm_compute in H. discriminate H.
Qed.

(** C3, as amended.  The throughput reported by [ThroughputMonitor] is
    1000 times the sum, over the records with [rxBytes > 0] in iteration
    order, of [rxBytes * 8 / dt / 1000], whatever the elapsed time [dt];
    for the single flow of 150000 bytes between 0 s and 1 s it is
    1,200,000. *)
Theorem throughput_sums_records_with_bytes :
  (forall stats g,
      gThroughput (value (ThroughputMonitor stats g)) = bytes_throughput stats)
  /\ (forall i fs g,
         rxBytes fs = 150000%Z ->
         timeFirstTxPacket fs = lit_0 ->
         timeLastRxPacket fs = lit_1 ->
         gThroughput (value (ThroughputMonitor [(i, fs)] g)) = of_Z 1200000).
Proof.
  assert (H : forall stats g,
             gThroughput (value (ThroughputMonitor stats g)) = bytes_throughput stats).
  { intros stats g. rewrite ThroughputMonitor_value. cbn [gThroughput set_metrics].
    rewrite flow_loop_throughput. reflexivity. }
  split; [exact H |].
  intros i [tf tl ds rb rp] g Hb Hf Hl. rewrite H.
  cbn [rxBytes timeFirstTxPacket timeLastRxPacket] in Hb, Hf, Hl. subst rb tf tl.
  reflexivity.
Qed.

Lemma throughput_sums_records_with_bytes_witness :
  gThroughput (value (ThroughputMonitor [(1%Z, flow_150k)] default_globals))
  = of_Z 1200000.
Proof.
  apply (proj2 throughput_sums_records_with_bytes 1%Z flow_150k default_globals);
    reflexivity.
Defined.

(** C3 as stated fails: the sum of the code has no filter on the elapsed
    time, so it differs from the worded one on [flow_instant]. *)
Lemma throughput_not_filtered_by_elapsed :
  spec_throughput [(1%Z, flow_instant)] = lit_0
  /\ gThroughput (value (ThroughputMonitor [(1%Z, flow_instant)] default_globals)) = pinf
  /\ gThroughput (value (ThroughputMonitor [(1%Z, flow_instant)] default_globals))
     <> spec_throughput [(1%Z, flow_instant)].
Proof.
  split; [reflexivity |]. split; [reflexivity |].
  vm_compute. discriminate.
Qed.

End AggregationClaims.

(** ** The latency recurrence *)

Section LatencyClaims.
Import Double.
Local Open Scope double_scope.

Lemma latency_after_gated (stats : list (FlowId * FlowStats)) (g : Globals) :
  latency_after stats g = gated_latency stats (gLatency g).
Proof.
  unfold latency_after. rewrite ThroughputMonitor_value.
  cbn [gLatency set_metrics]. apply flow_loop_latency.
Qed.

(** C4, as amended.  From [gLatency = L0], one flow with bytes and
    packets and per-flow latency [x] gives [(L0 + x) / 2]; two such flows
    with latencies [x] then [y] give [((L0 + x) / 2 + y) / 2].  Swapping
    two flows of equal latency changes nothing, and the order can matter:
    latencies 1 then 2 from 0 give 1.25, and 2 then 1 give 1. *)
Theorem latency_recurrence (i j : FlowId) (fs1 fs2 : FlowStats) (g : Globals) :
  (0 < rxBytes fs1)%Z -> (0 < rxPackets fs1)%Z ->
  (0 < rxBytes fs2)%Z -> (0 < rxPackets fs2)%Z ->
  latency_after [(i, fs1)] g = (gLatency g + flowLatency fs1) / lit_2
  /\ latency_after [(i, fs1); (j, fs2)] g
     = ((gLatency g + flowLatency fs1) / lit_2 + flowLatency fs2) / lit_2
  /\ (flowLatency fs1 = flowLatency fs2 ->
      latency_after [(i, fs1); (j, fs2)] g = latency_after [(j, fs2); (i, fs1)] g)
  /\ latency_after [(1%Z, flow_lat_1); (2%Z, flow_lat_2)] default_globals
     <> latency_after [(1%Z, flow_lat_2); (2%Z, flow_lat_1)] default_globals.
Proof.
  intros B1 P1 B2 P2.
  rewrite !latency_after_gated. unfold gated_latency, fold_latency.
  cbn [map snd filter].
  rewrite (has_bytes_true _ B1), (has_packets_true _ P1),
    (has_bytes_true _ B2), (has_packets_true _ P2).
  cbn [andb map fold_left]. unfold latency_update.
  repeat split.
  - intros ->. reflexivity.
  - vm_compute. discriminate.
Qed.

Lemma latency_recurrence_witness :
  latency_after [(1%Z, flow_lat_1); (2%Z, flow_lat_2)] default_globals
  = decimal 125 100.
Proof.
  refine (eq_trans
            (proj1 (proj2 (latency_recurrence 1%Z 2%Z flow_lat_1 flow_lat_2
                             default_globals _ _ _ _))) _);
    reflexivity.
Defined.

(** C4 as stated fails in its last part: the latencies 1.5 and
    1.5 + 2^-52 differ, and from [gLatency = 0] both orders end at
    1.125, the sums [0.75 + y] and [y / 2 + 1.5] rounding to the same
    double. *)
Lemma swap_of_distinct_latencies_unnoticed :
  flowLatency flow_lat_15 <> flowLatency flow_lat_15_next
  /\ eqb (flowLatency flow_lat_15) (flowLatency flow_lat_15_next) = false
  /\ latency_after [(1%Z, flow_lat_15); (2%Z, flow_lat_15_next)] default_globals
     = latency_after [(1%Z, flow_lat_15_next); (2%Z, flow_lat_15)] default_globals.
Proof.
  split; [vm_compute; discriminate |]. split; reflexivity.
Qed.

(** C5, as amended.  [ThroughputMonitor] applies the update
    [gLatency = (gLatency + delaySum / rxPackets) / 2] once for every
    record that has [rxBytes > 0] and [rxPackets > 0], in iteration
    order, and for no other record. *)
Theorem latency_update_once_per_gated_record
  (stats : list (FlowId * FlowStats)) (g : Globals) :
  latency_after stats g = gated_latency stats (gLatency g)
  /\ count_site DivHalf (trace (ThroughputMonitor stats g))
     = List.length
         (filter (fun fs => has_bytes fs && has_packets fs) (map snd stats)).
Proof.
  split; [apply latency_after_gated |].
  rewrite ThroughputMonitor_trace. apply flow_loop_updates.
Qed.

(** C5 as stated fails: a record with a packet and no byte gets no
    latency update. *)
Lemma packets_without_bytes_not_averaged :
  (0 < rxPackets flow_empty_packet)%Z
  /\ latency_after [(1%Z, flow_empty_packet)] default_globals = lit_0
  /\ spec_latency [(1%Z, flow_empty_packet)] (gLatency default_globals)
     = decimal 5 10
  /\ latency_after [(1%Z, flow_empty_packet)] default_globals
     <> spec_latency [(1%Z, flow_empty_packet)] (gLatency default_globals)
  /\ count_site DivHalf
       (trace (ThroughputMonitor [(1%Z, flow_empty_packet)] default_globals)) = 0%nat.
Proof.
  split; [reflexivity |]. split; [reflexivity |]. split; [reflexivity |].
  split; [vm_compute; discriminate | reflexivity].
Qed.




(** Every division of the loop comes from a record with bytes; the two
    latency divisions come from a record that has packets as well. *)
Lemma flow_loop_events (stats : list (FlowId * FlowStats)) :
  forall st ev,
    In ev (trace (flow_loop stats st)) ->
    exists fs, In fs (map snd stats)
               /\ (0 < rxBytes fs)%Z
               /\ (ev = elapsed_event fs
                   \/ ev = kilo_event fs
                   \/ ((0 < rxPackets fs)%Z
                       /\ (ev = packets_event fs \/ exists l, ev = half_event fs l))).
Proof.
  induction stats as [| [i fs] rest IH]; intros [t l] ev Hin; [destruct Hin |].
  destruct (flow_loop_cons (i, fs) rest (t, l)) as [_ E].
  rewrite E in Hin. apply in_app_or in Hin. destruct Hin as [Hin | Hin].
  - cbn [snd] in Hin. rewrite flow_body_trace in Hin.
    unfold has_bytes, has_packets in Hin.
    exists fs. split; [left; reflexivity |].
    destruct (Z.ltb_spec 0 (rxBytes fs)) as [Hb | _]; [| destruct Hin].
    split; [exact Hb |].
    destruct Hin as [<- | [<- | Hin]]; [auto | auto |].
    destruct (Z.ltb_spec 0 (rxPackets fs)) as [Hp | _]; [| destruct Hin].
    destruct Hin as [<- | [<- | []]]; eauto 6.
  - destruct (IH _ ev Hin) as (fs' & Hfs & H).
    exists fs'. split; [right; exact Hfs | exact H].
Qed.

(** The elapsed-time division is the only one that can meet a zero
    divisor. *)
Lemma zero_division_is_elapsed
  (stats : list (FlowId * FlowStats)) (g : Globals) (ev : div_event) :
  In ev (trace (ThroughputMonitor stats g)) -> zero_division ev = true ->
  exists fs, In fs (map snd stats)
             /\ ev = elapsed_event fs /\ is_zero (elapsed fs) = true.
Proof.
  rewrite ThroughputMonitor_trace. intros Hin Hz.
  destruct (flow_loop_events stats _ ev Hin)
    as (fs & Hfs & Hb & [-> | [-> | (Hp & [-> | (l & ->)])]]);
    try discriminate Hz.
  - exists fs. auto.
  - unfold zero_division, packets_event in Hz; cbn [divisor] in Hz.
    destruct (rxPackets fs) as [| p | p]; try lia.
    rewrite (signed_nonzero_not_zero _ _ _ (of_Z_positive p)) in Hz.
    discriminate Hz.
Qed.

(** C9.  Every division [delaySum / rxPackets] that [ThroughputMonitor]
    executes comes from a record with [rxPackets > 0], and its divisor,
    the packet count as a double, is not zero. *)
Theorem latency_division_guarded
  (stats : list (FlowId * FlowStats)) (g : Globals) (ev : div_event) :
  In ev (trace (ThroughputMonitor stats g)) -> site ev = DivPackets ->
  zero_division ev = false
  /\ exists fs, In fs (map snd stats)
                /\ (0 < rxPackets fs)%Z
                /\ dividend ev = delaySum fs
                /\ divisor ev = of_Z (rxPackets fs).
Proof.
  rewrite ThroughputMonitor_trace. intros Hin Hs.
  destruct (flow_loop_events stats _ ev Hin)
    as (fs & Hfs & Hb & [-> | [-> | (Hp & [-> | (l & ->)])]]);
    try discriminate Hs.
  split; [| exists fs; auto].
  unfold zero_division, packets_event; cbn [divisor].
  destruct (rxPackets fs) as [| p | p]; try lia.
  exact (signed_nonzero_not_zero _ _ _ (of_Z_positive p)).
Qed.

Lemma latency_division_guarded_witness :
  zero_division (packets_event flow_150k) = false.
Proof.
  apply (latency_division_guarded
           [(1%Z, flow_150k); (2%Z, mkflow 1500 0 lit_0 lit_1 lit_0)]
           default_globals (packets_event flow_150k)).
  - vm_compute. right; right; left; reflexivity.
  - reflexivity.
Defined.

End LatencyClaims.

(** ** The fallback *)

Section FallbackClaims.
Import Double.
Local Open Scope double_scope.

Variable log2 : double -> double.
Variable pow : double -> double -> double.

Lemma main_fallback_unfold (g : Globals) :
  main_fallback log2 pow g =
  if gThroughput g <=? lit_0
  then set_metrics g
         (spec_fallback_throughput log2 pow
            (gBandwidth g) (gTxPower g) (gFrequency g) (is_TDD g))
         (spec_fallback_latency (gBandwidth g) (is_TDD g))
  else g.
Proof. reflexivity. Qed.

(** C2.  With a throughput of at most zero the fallback stores
    [bandwidth * log2 (1 + pow (10, (10 + (txPower - 20) / 2) / 10))
     * (0.8 or 0.95) * (4 or 8) * 0.85] and
    [0.001 + (0.0005 or 0) + (100e6 / bandwidth) * 0.0005].  For
    throughput 0, 20 dBm, 20 MHz, TDD and 3.5 GHz, a library with
    [pow (10, 1) = 10] gives the throughput
    [20e6 * log2 (11) * 0.8 * 4 * 0.85] and the latency is the double
    0.004. *)
Theorem fallback_formulas :
  pow lit_10 lit_1 = lit_10 ->
  (forall g,
      (gThroughput g <=? lit_0) = true ->
      gThroughput (main_fallback log2 pow g)
      = spec_fallback_throughput log2 pow
          (gBandwidth g) (gTxPower g) (gFrequency g) (is_TDD g)
      /\ gLatency (main_fallback log2 pow g)
         = spec_fallback_latency (gBandwidth g) (is_TDD g))
  /\ (forall lat,
         let g := set_metrics default_globals lit_0 lat in
         gThroughput (main_fallback log2 pow g)
         = of_Z 20000000 * log2 (of_Z 11) * lit_0_8 * lit_4 * lit_0_85
         /\ gLatency (main_fallback log2 pow g) = decimal 4 1000).
Proof.
  intros Hpow. split.
  - intros g Ht. rewrite main_fallback_unfold, Ht. split; reflexivity.
  - intros lat g. rewrite main_fallback_unfold.
    change (gThroughput g <=? lit_0) with true. cbv iota.
    cbn [gThroughput gLatency set_metrics].
    split; [| reflexivity].
    unfold spec_fallback_throughput.
    change (gBandwidth g) with (of_Z 20000000).
    change (is_TDD g) with true.
    change (gFrequency g <? lit_6e9) with true.
    change ((lit_10 + (gTxPower g - lit_20) / lit_2) / lit_10) with lit_1.
    rewrite Hpow.
    change (lit_1 + lit_10) with (of_Z 11).
    reflexivity.
Qed.

(** C6.  With a throughput above zero the fallback returns the globals
    as they are. *)
Theorem fallback_not_triggered (g : Globals) :
  (lit_0 <? gThroughput g) = true -> main_fallback log2 pow g = g.
Proof.
  intros H. rewrite main_fallback_unfold.
  destruct (gThroughput g) as [[|] | [|] | | [|] m e];
    try discriminate H; reflexivity.
Qed.

Lemma fallback_twice (g : Globals) :
  main_fallback log2 pow (main_fallback log2 pow g) = main_fallback log2 pow g.
Proof.
  rewrite (main_fallback_unfold g).
  destruct (gThroughput g <=? lit_0) eqn:E.
  - rewrite main_fallback_unfold.
    cbn [gThroughput gBandwidth gTxPower gFrequency set_metrics].
    unfold is_TDD. cbn [gDuplexMode set_metrics].
    match goal with |- (if ?c then _ else _) = _ => destruct c end; reflexivity.
  - rewrite main_fallback_unfold, E. reflexivity.
Qed.

(** C7, as amended.  For every configuration, whatever its bandwidth, the
    fallback applied to its own result returns that result.  When the
    result has a throughput above zero the second application is not
    triggered; the trigger can also hold again on the result, and then the
    result holds the two fallback values, which the second application
    recomputes from the unchanged parameters. *)
Theorem fallback_idempotent (g : Globals) :
  main_fallback log2 pow (main_fallback log2 pow g) = main_fallback log2 pow g
  /\ ((lit_0 <? gThroughput (main_fallback log2 pow g)) = true ->
      (gThroughput (main_fallback log2 pow g) <=? lit_0) = false)
  /\ ((gThroughput (main_fallback log2 pow g) <=? lit_0) = true ->
      main_fallback log2 pow g
      = set_metrics g
          (spec_fallback_throughput log2 pow
             (gBandwidth g) (gTxPower g) (gFrequency g) (is_TDD g))
          (spec_fallback_latency (gBandwidth g) (is_TDD g))).
Proof.
  split; [apply fallback_twice | split].
  - destruct (gThroughput (main_fallback log2 pow g)) as [[|] | [|] | | [|] m e];
      intros H; try discriminate H; reflexivity.
  - rewrite (main_fallback_unfold g).
    destruct (gThroughput g <=? lit_0) eqn:E; [reflexivity |].
    intros H. rewrite E in H. discriminate H.
Qed.

(** Whatever the library, when [pow (10, -16)] is so small that adding it
    to 1 gives 1, and [log2 (1)] is [+0.0], the fallback at -320 dBm stores
    the throughput [+0.0], on which its own trigger holds. *)
Lemma weak_signal_throughput_zero :
  lit_1 + pow lit_10 (of_Z (-16)) = lit_1 ->
  log2 lit_1 = zero ->
  gThroughput (main_fallback log2 pow weak_globals) = zero.
Proof.
  intros Hp Hl. rewrite main_fallback_unfold.
  change (gThroughput weak_globals <=? lit_0) with true. cbv iota.
  cbn [gThroughput set_metrics]. unfold spec_fallback_throughput.
  change ((lit_10 + (gTxPower weak_globals - lit_20) / lit_2) / lit_10)
    with (of_Z (-16)).
  rewrite Hp, Hl. reflexivity.
Qed.

(** C10.  Two runs of the triggered fallback that agree on the duplex
    mode and on the bandwidth store the same latency, whatever their
    frequencies and transmit powers. *)
Theorem fallback_latency_ignores_frequency_and_power (g1 g2 : Globals) :
  gDuplexMode g1 = gDuplexMode g2 ->
  gBandwidth g1 = gBandwidth g2 ->
  (gThroughput g1 <=? lit_0) = true ->
  (gThroughput g2 <=? lit_0) = true ->
  gLatency (main_fallback log2 pow g1) = gLatency (main_fallback log2 pow g2).
Proof.
  intros Hd Hb H1 H2.
  rewrite !main_fallback_unfold, H1, H2.
  cbn [gLatency set_metrics]. unfold is_TDD. rewrite Hd, Hb. reflexivity.
Qed.

End FallbackClaims.

Lemma fallback_formulas_witness :
  sample_pow lit_10 lit_1 = lit_10
  /\ gThroughput (main_fallback sample_log2 sample_pow default_globals)
     = Double.mul (Double.mul (Double.mul (Double.mul (Double.of_Z 20000000)
         (sample_log2 (Double.of_Z 11))) lit_0_8) lit_4) lit_0_85
  /\ gLatency (main_fallback sample_log2 sample_pow default_globals)
     = Double.decimal 4 1000.
Proof.
  split; [reflexivity |].
  exact (proj2 (fallback_formulas sample_log2 sample_pow eq_refl) lit_0).
Defined.

(** With that value of [log2 (11)] the throughput of the worked example is
    188193080.05..., between 188.1e6 and 188.3e6. *)
Example fallback_example_value :
  gThroughput (main_fallback sample_log2 sample_pow default_globals)
  = S754_finite false 6314711907538103 (-25)
  /\ Double.ltb (Double.of_Z 188100000)
       (gThroughput (main_fallback sample_log2 sample_pow default_globals)) = true
  /\ Double.ltb (gThroughput (main_fallback sample_log2 sample_pow default_globals))
       (Double.of_Z 188300000) = true.
Proof. repeat split. Qed.

Lemma fallback_not_triggered_witness :
  let g := set_metrics default_globals (Double.of_Z 1200000) (Double.decimal 1 100) in
  Double.ltb lit_0 (gThroughput g) = true
  /\ main_fallback sample_log2 sample_pow g = g.
Proof.
  split; [reflexivity |].
  apply (fallback_not_triggered sample_log2 sample_pow). reflexivity.
Defined.

Lemma fallback_idempotent_witness :
  main_fallback sample_log2 sample_pow
    (main_fallback sample_log2 sample_pow default_globals)
  = main_fallback sample_log2 sample_pow default_globals
  /\ Double.leb (gThroughput (main_fallback sample_log2 sample_pow default_globals))
       lit_0 = false.
Proof.
  split.
  - exact (proj1 (fallback_idempotent sample_log2 sample_pow default_globals)).
  - apply (proj1 (proj2 (fallback_idempotent sample_log2 sample_pow default_globals))).
    reflexivity.
Defined.

(** C7 as stated fails in its reason: with the bandwidth of 20 MHz and a
    transmit power of -320 dBm, [1 + pow (10, -16)] rounds to 1, the
    fallback stores the throughput [log2 (1) * ... = +0.0], which is not
    above zero, and the trigger holds again on the result. *)
Lemma fallback_result_not_positive :
  Double.ltb lit_0 (gBandwidth weak_globals) = true
  /\ gThroughput (main_fallback weak_log2 weak_pow weak_globals) = Double.zero
  /\ Double.ltb lit_0 (gThroughput (main_fallback weak_log2 weak_pow weak_globals))
     = false
  /\ Double.leb (gThroughput (main_fallback weak_log2 weak_pow weak_globals)) lit_0
     = true.
Proof. repeat split. Qed.

Lemma fallback_latency_ignores_frequency_and_power_witness :
  gFrequency default_globals <> gFrequency mmwave_globals
  /\ gTxPower default_globals <> gTxPower mmwave_globals
  /\ gLatency (main_fallback sample_log2 sample_pow default_globals)
     = gLatency (main_fallback sample_log2 sample_pow mmwave_globals).
Proof.
  split; [vm_compute; discriminate |]. split; [vm_compute; discriminate |].
  apply (fallback_latency_ignores_frequency_and_power sample_log2 sample_pow);
    reflexivity.
Defined.

(** * Further properties of the driver *)

(** ** Rounding keeps the sign *)

Section SignFacts.
Import Double.
Local Open Scope double_scope.

Lemma shr_1_nonneg (mrs : shr_record) :
  (0 <= shr_m mrs)%Z -> (0 <= shr_m (shr_1 mrs))%Z.
Proof.
  destruct mrs as [m r s]; cbn [shr_m shr_1].
  destruct m as [| [q | q |] | q]; cbn [shr_m]; lia.
Qed.

Lemma iter_shr_1_nonneg (k : positive) :
  forall mrs, (0 <= shr_m mrs)%Z -> (0 <= shr_m (iter_pos shr_1 k mrs))%Z.
Proof.
  induction k as [k IH | k IH |]; intros mrs H; cbn [iter_pos].
  - apply IH, IH, shr_1_nonneg, H.
  - apply IH, IH, H.
  - apply shr_1_nonneg, H.
Qed.

Lemma shr_fexp_nonneg (m e : Z) (l : location) :
  (0 <= m)%Z -> (0 <= shr_m (fst (shr_fexp prec emax m e l)))%Z.
Proof.
  intros H. unfold shr_fexp, shr.
  destruct (fexp prec emax (Zdigits2 m + e) - e)%Z as [| k | k]; cbn [fst];
    try (rewrite shr_m_of_loc; exact H).
  apply iter_shr_1_nonneg. rewrite shr_m_of_loc. exact H.
Qed.

Lemma round_nearest_even_nonneg (m : Z) (l : location) :
  (0 <= m)%Z -> (0 <= round_nearest_even m l)%Z.
Proof.
  intros H. destruct l as [| [| |]]; cbn [round_nearest_even];
    try destruct (Z.even m); lia.
Qed.

Lemma binary_round_aux_sign (sx : bool) (m e : Z) (l : location) :
  (0 <= m)%Z -> has_sign sx (binary_round_aux prec emax sx m e l).
Proof.
  intros H. unfold binary_round_aux.
  pose proof (shr_fexp_nonneg m e l H) as H1.
  destruct (shr_fexp prec emax m e l) as [mrs1 e1]; cbn [fst] in H1.
  pose proof (shr_fexp_nonneg _ e1 loc_Exact
                (round_nearest_even_nonneg _ (loc_of_shr_record mrs1) H1)) as H2.
  destruct (shr_fexp prec emax _ e1 loc_Exact) as [mrs2 e2]; cbn [fst] in H2.
  destruct (shr_m mrs2) as [| q | q]; [left; reflexivity | | lia].
  destruct (Z.leb e2 _); right; [right; eauto | left; reflexivity].
Qed.

Lemma has_sign_false_nonneg (x : double) : has_sign false x -> nonneg x = true.
Proof. intros [-> | [-> | (m & e & ->)]]; reflexivity. Qed.

Lemma add_nonneg (x y : double) :
  nonneg x = true -> nonneg y = true -> nonneg (x + y) = true.
Proof.
  destruct x as [sx | [|] | | [|] mx ex]; try discriminate;
    destruct y as [sy | [|] | | [|] my ey]; try discriminate; intros _ _;
    try reflexivity; try (destruct sx; reflexivity);
    try (destruct sx, sy; reflexivity).
  apply has_sign_false_nonneg.
  unfold add, SFadd. cbn [cond_Zopp Z.add binary_normalize].
  unfold binary_round.
  destruct (shl_align _ _ _) as [mz ez].
  apply binary_round_aux_sign. lia.
Qed.

Lemma mul_nonneg_finite (x : double) (m : positive) (e : Z) :
  nonneg x = true -> nonneg (x * S754_finite false m e) = true.
Proof.
  destruct x as [sx | [|] | | [|] mx ex]; try discriminate; intros _;
    try reflexivity; try (destruct sx; reflexivity).
  apply has_sign_false_nonneg. apply binary_round_aux_sign. lia.
Qed.

Lemma div_nonneg_finite (x : double) (m : positive) (e : Z) :
  nonneg x = true -> nonneg (x / S754_finite false m e) = true.
Proof.
  destruct x as [sx | [|] | | [|] mx ex]; try discriminate; intros _;
    try reflexivity; try (destruct sx; reflexivity).
  apply has_sign_false_nonneg.
  unfold div, SFdiv, SFdiv_core_binary.
  set (m' := match _ with Z0 => _ | Zpos _ => _ | Zneg _ => _ end).
  assert (Hm : (0 <= m')%Z).
  { subst m'. destruct (_ - _ - _)%Z; try lia. apply Z.shiftl_nonneg. lia. }
  pose proof (Z.div_pos m' (Zpos m) Hm ltac:(lia)) as Hq.
  unfold Z.div in Hq. destruct (Z.div_eucl m' (Zpos m)) as [q r]. cbn [fst] in Hq.
  apply binary_round_aux_sign. exact Hq.
Qed.

End SignFacts.

(** ** Integers below 2^53 convert to finite doubles *)

Section SmallIntegers.
Import Double.

Lemma digits2_pos_size (p : positive) : digits2_pos p = Pos.size p.
Proof. induction p as [p IH | p IH |]; cbn; congruence. Qed.

Lemma digits2_pos_bound (p : positive) (n : Z) :
  0 <= n -> Zpos p < 2 ^ n -> Zpos (digits2_pos p) <= n.
Proof.
  intros Hn H. rewrite digits2_pos_size.
  pose proof (Pos.size_le p) as Hs.
  assert (Hz : 2 ^ Zpos (Pos.size p) <= 2 * Zpos p).
  { change 2 with (Zpos 2) at 1. rewrite <- Pos2Z.inj_pow.
    change (2 * Zpos p) with (Zpos p~0). apply Pos2Z.pos_le_pos, Hs. }
  assert (Hlt : 2 ^ Zpos (Pos.size p) < 2 ^ (n + 1)).
  { replace (n + 1) with (Z.succ n) by lia. rewrite Z.pow_succ_r by lia. lia. }
  apply Z.pow_lt_mono_r_iff in Hlt; lia.
Qed.

Lemma digits2_pos_iter_xO (p k : positive) :
  Zpos (digits2_pos (Pos.iter xO p k)) = Zpos (digits2_pos p) + Zpos k.
Proof.
  induction k as [| k IH] using Pos.peano_ind.
  - cbn [Pos.iter digits2_pos]. lia.
  - rewrite Pos.iter_succ. cbn [digits2_pos]. lia.
Qed.

Lemma binary_round_aux_canonical (sx : bool) (m : positive) (e : Z) :
  Zpos (digits2_pos m) = 53 -> -1074 <= e <= 971 ->
  binary_round_aux prec emax sx (Zpos m) e loc_Exact = S754_finite sx m e.
Proof.
  intros Hd He.
  assert (H0 : fexp prec emax (Zdigits2 (Zpos m) + e) - e = 0).
  { cbn [Zdigits2]. rewrite Hd. unfold fexp, emin, prec, emax. lia. }
  unfold binary_round_aux, shr_fexp. rewrite H0.
  cbn [shr shr_record_of_loc shr_m loc_of_shr_record round_nearest_even].
  rewrite H0. cbn [shr shr_record_of_loc shr_m].
  destruct (Z.leb_spec e (emax - prec)) as [_ | H]; [reflexivity |].
  unfold emax, prec in H. lia.
Qed.

Lemma of_Z_small_finite (p : positive) :
  Zpos p < 2 ^ 53 -> positive_finite (of_Z (Zpos p)) = true.
Proof.
  intros Hp. pose proof (digits2_pos_bound p 53 ltac:(lia) Hp) as Hd.
  unfold of_Z, binary_normalize, binary_round, shl_align.
  assert (Hf : fexp prec emax (Zpos (digits2_pos p) + 0) = Zpos (digits2_pos p) - 53).
  { unfold fexp, emin, prec, emax. lia. }
  rewrite Hf.
  destruct (Zpos (digits2_pos p) - 53 - 0) as [| k | k] eqn:Ek; try lia.
  - rewrite binary_round_aux_canonical; [reflexivity | lia | lia].
  - rewrite binary_round_aux_canonical; [reflexivity | | lia].
    rewrite digits2_pos_iter_xO. lia.
Qed.

End SmallIntegers.

(** ** More on [ThroughputMonitor] *)

Section AggregationExtras.
Import Double.
Local Open Scope double_scope.

Lemma bind_ret_l {A B : Type} (a : A) (k : A -> Traced B) :
  (x <- ret a ;; k x) = k a.
Proof. unfold bind, ret. cbn [fst snd app]. destruct (k a); reflexivity. Qed.

Lemma flow_loop_app (s1 s2 : list (FlowId * FlowStats)) :
  forall st,
    value (flow_loop (s1 ++ s2) st) = value (flow_loop s2 (value (flow_loop s1 st)))
    /\ trace (flow_loop (s1 ++ s2) st)
       = trace (flow_loop s1 st) ++ trace (flow_loop s2 (value (flow_loop s1 st))).
Proof.
  induction s1 as [| i rest IH]; intros st; [split; reflexivity |].
  cbn [app].
  destruct (flow_loop_cons i (rest ++ s2) st) as [-> ->].
  destruct (flow_loop_cons i rest st) as [-> ->].
  destruct (IH (value (flow_body (snd i) st))) as [-> ->].
  rewrite app_assoc. split; reflexivity.
Qed.

Lemma gated_latency_app (s1 s2 : list (FlowId * FlowStats)) (l : double) :
  gated_latency (s1 ++ s2) l = gated_latency s2 (gated_latency s1 l).
Proof.
  unfold gated_latency, fold_latency.
  rewrite map_app, filter_app, map_app, fold_left_app. reflexivity.
Qed.

Lemma ThroughputMonitor_throughput (stats : list (FlowId * FlowStats)) (g : Globals) :
  gThroughput (value (ThroughputMonitor stats g)) = bytes_throughput stats.
Proof.
  rewrite ThroughputMonitor_value. cbn [gThroughput set_metrics].
  rewrite flow_loop_throughput. reflexivity.
Qed.

Lemma ThroughputMonitor_latency (stats : list (FlowId * FlowStats)) (g : Globals) :
  gLatency (value (ThroughputMonitor stats g)) = gated_latency stats (gLatency g).
Proof.
  rewrite ThroughputMonitor_value. cbn [gLatency set_metrics].
  apply flow_loop_latency.
Qed.

Lemma ThroughputMonitor_config (stats : list (FlowId * FlowStats)) (g : Globals) :
  same_config (value (ThroughputMonitor stats g)) g.
Proof. rewrite ThroughputMonitor_value. repeat split. Qed.

(** X1.  Two calls in a row: the throughput left by the second call is that
    of its own snapshot alone, while the latency is the recurrence run over
    the first snapshot and then the second, as one call on the two
    snapshots put end to end would leave it.  A flow present in both
    snapshots enters the latency twice. *)
Theorem two_calls_compose (s1 s2 : list (FlowId * FlowStats)) (g : Globals) :
  gThroughput (value (ThroughputMonitor s2 (value (ThroughputMonitor s1 g))))
  = gThroughput (value (ThroughputMonitor s2 g))
  /\ gLatency (value (ThroughputMonitor s2 (value (ThroughputMonitor s1 g))))
     = gLatency (value (ThroughputMonitor (s1 ++ s2) g))
  /\ trace (ThroughputMonitor (s1 ++ s2) g)
     = trace (ThroughputMonitor s1 g)
       ++ trace (ThroughputMonitor s2 (value (ThroughputMonitor s1 g))).
Proof.
  split; [| split].
  - rewrite !ThroughputMonitor_throughput. reflexivity.
  - rewrite !ThroughputMonitor_latency. symmetry. apply gated_latency_app.
  - rewrite !ThroughputMonitor_trace.
    destruct (flow_loop_app s1 s2 (lit_0, gLatency g)) as [_ ->].
    rewrite ThroughputMonitor_latency.
    f_equal.
    assert (H : forall t t' l stats,
               trace (flow_loop stats (t, l)) = trace (flow_loop stats (t', l))).
    { intros t t' l stats. revert t t' l.
      induction stats as [| i rest IH]; intros t t' l; [reflexivity |].
      destruct (flow_loop_cons i rest (t, l)) as [_ ->].
      destruct (flow_loop_cons i rest (t', l)) as [_ ->].
      rewrite !flow_body_trace, !flow_body_value.
      destruct (has_bytes (snd i)); [| f_equal; apply IH].
      f_equal. apply IH. }
    destruct (value (flow_loop s1 (lit_0, gLatency g))) as [t l] eqn:E.
    pose proof (flow_loop_latency s1 lit_0 (gLatency g)) as Hl.
    rewrite E in Hl. cbn [snd] in Hl. rewrite <- Hl. apply H.
Qed.

(** X2.  Records without bytes are invisible: dropping every record with
    [rxBytes = 0] from the snapshot changes neither the globals that
    [ThroughputMonitor] leaves nor the divisions it executes. *)
Theorem records_without_bytes_invisible
  (stats : list (FlowId * FlowStats)) (g : Globals) :
  ThroughputMonitor stats g
  = ThroughputMonitor (filter (fun i => has_bytes (snd i)) stats) g.
Proof.
  unfold ThroughputMonitor. f_equal.
  generalize (lit_0, gLatency g).
  induction stats as [| i rest IH]; intros st; [reflexivity |].
  cbn [filter]. destruct (has_bytes (snd i)) eqn:Hb.
  - cbn [flow_loop]. unfold bind. rewrite IH. reflexivity.
  - cbn [flow_loop]. unfold flow_body. destruct st as [t l].
    unfold has_bytes in Hb. rewrite Hb. rewrite bind_ret_l. apply IH.
Qed.

End AggregationExtras.

(** ** Signs of the two metrics *)

Section SignClaims.
Import Double.
Local Open Scope double_scope.

Lemma signed_nonzero_nonneg (lo : Z) (x : double) :
  signed_nonzero false lo x -> nonneg x = true.
Proof. intros [-> | (m & e & -> & _)]; reflexivity. Qed.

Lemma contribution_nonneg (fs : FlowStats) :
  (0 < rxBytes fs)%Z -> positive_finite (elapsed fs) = true ->
  nonneg (contribution fs) = true.
Proof.
  intros Hb He. unfold contribution.
  destruct (elapsed fs) as [s | s | | [|] m e]; try discriminate He.
  change lit_1000 with (S754_finite false 8796093022208000 (-43)).
  apply div_nonneg_finite, div_nonneg_finite.
  exact (signed_nonzero_nonneg _ _ (bytes_times_8_nonzero fs Hb)).
Qed.

Lemma fold_add_nonneg (l : list double) :
  forall acc, nonneg acc = true -> Forall (fun x => nonneg x = true) l ->
              nonneg (fold_left add l acc) = true.
Proof.
  induction l as [| x l IH]; intros acc Ha Hl; [exact Ha |].
  inversion Hl as [| ? ? Hx Hl']; subst.
  cbn [fold_left]. apply IH; [apply add_nonneg; assumption | exact Hl'].
Qed.

(** X3.  When every record with bytes has a positive finite elapsed time,
    the throughput that [ThroughputMonitor] leaves is neither a NaN nor
    negative. *)
Theorem throughput_nonneg (stats : list (FlowId * FlowStats)) (g : Globals) :
  Forall (fun i => (0 < rxBytes (snd i))%Z ->
                   positive_finite (elapsed (snd i)) = true) stats ->
  nonneg (gThroughput (value (ThroughputMonitor stats g))) = true.
Proof.
  intros H. rewrite ThroughputMonitor_throughput.
  unfold bytes_throughput, sum_contributions.
  change lit_1000 with (S754_finite false 8796093022208000 (-43)).
  apply mul_nonneg_finite. apply fold_add_nonneg; [reflexivity |].
  induction H as [| [i fs] rest Hfs _ IH]; [constructor |].
  cbn [map snd filter] in *. unfold has_bytes at 1.
  destruct (Z.ltb_spec 0 (rxBytes fs)) as [Hb | _]; [| exact IH].
  cbn [map]. constructor; [| exact IH].
  apply contribution_nonneg; auto.
Qed.

Lemma throughput_nonneg_witness :
  nonneg (gThroughput (value (ThroughputMonitor
                                [(1%Z, flow_150k); (2%Z, flow_empty_packet)]
                                default_globals))) = true.
Proof.
  apply throughput_nonneg.
  repeat constructor; cbn [snd]; intros _; reflexivity.
Defined.

Lemma flowLatency_nonneg (fs : FlowStats) :
  (0 < rxPackets fs < 2 ^ 32)%Z -> nonneg (delaySum fs) = true ->
  nonneg (flowLatency fs) = true.
Proof.
  intros Hp Hd. unfold flowLatency.
  destruct (rxPackets fs) as [| p | p]; try lia.
  pose proof (of_Z_small_finite p ltac:(lia)) as Hf.
  destruct (of_Z (Zpos p)) as [s | s | | [|] m e]; try discriminate Hf.
  apply div_nonneg_finite, Hd.
Qed.

Lemma latency_update_nonneg (l x : double) :
  nonneg l = true -> nonneg x = true -> nonneg (latency_update l x) = true.
Proof.
  intros Hl Hx. unfold latency_update.
  change lit_2 with (S754_finite false 4503599627370496 (-51)).
  apply div_nonneg_finite, add_nonneg; assumption.
Qed.

(** X4.  When the latency starts neither NaN nor negative, and every
    record has its counters in range and a delay sum that is neither NaN
    nor negative, the latency that [ThroughputMonitor] leaves is neither a
    NaN nor negative. *)
Theorem latency_nonneg (stats : list (FlowId * FlowStats)) (g : Globals) :
  nonneg (gLatency g) = true ->
  Forall (fun i => FlowStats_wf (snd i) /\ nonneg (delaySum (snd i)) = true) stats ->
  nonneg (gLatency (value (ThroughputMonitor stats g))) = true.
Proof.
  intros Hg H. rewrite ThroughputMonitor_latency.
  unfold gated_latency, fold_latency.
  generalize dependent (gLatency g).
  induction H as [| [i fs] rest [[_ Hwf] Hd] _ IH]; intros l Hl; [exact Hl |].
  cbn [map snd filter] in *. unfold has_bytes at 1, has_packets at 1.
  destruct (Z.ltb_spec 0 (rxBytes fs)) as [Hb | _]; cbn [andb]; [| apply IH, Hl].
  destruct (Z.ltb_spec 0 (rxPackets fs)) as [Hp | _]; [| apply IH, Hl].
  cbn [map fold_left]. apply IH.
  apply latency_update_nonneg; [exact Hl |].
  apply flowLatency_nonneg; [lia | exact Hd].
Qed.

Lemma latency_nonneg_witness :
  nonneg (gLatency (value (ThroughputMonitor
                             [(1%Z, flow_150k); (2%Z, flow_instant)]
                             default_globals))) = true.
Proof.
  apply latency_nonneg; [reflexivity |].
  repeat constructor; cbn; lia.
Defined.

(** X5.  From a latency of [0.0], the value the program starts with, one
    call on a single flow with bytes and packets leaves half the per-packet
    latency of that flow, not the latency itself. *)
Theorem fresh_single_flow_reports_half
  (i : FlowId) (fs : FlowStats) (g : Globals) :
  (0 < rxBytes fs)%Z -> (0 < rxPackets fs)%Z ->
  gLatency g = lit_0 ->
  flowLatency fs <> S754_zero true ->
  gLatency (value (ThroughputMonitor [(i, fs)] g)) = flowLatency fs / lit_2.
Proof.
  intros Hb Hp Hg Hx. rewrite ThroughputMonitor_latency, Hg.
  unfold gated_latency, fold_latency. cbn [map snd filter].
  rewrite (has_bytes_true fs Hb), (has_packets_true fs Hp).
  cbn [andb map fold_left]. unfold latency_update. f_equal.
  destruct (flowLatency fs) as [[|] | s | | s m e]; try reflexivity.
  contradiction Hx. reflexivity.
Qed.

Lemma fresh_single_flow_reports_half_witness :
  gLatency (value (ThroughputMonitor [(1%Z, flow_150k)] default_globals))
  = decimal 5 1000.
Proof.
  refine (eq_trans (fresh_single_flow_reports_half 1%Z flow_150k default_globals
                      _ _ _ _) _);
    try reflexivity.
  vm_compute. discriminate.
Defined.

End SignClaims.

(** ** More on the fallback and on the run of [main] *)

Section FallbackExtras.
Import Double.
Local Open Scope double_scope.

Variable log2 : double -> double.
Variable pow : double -> double -> double.

Lemma leb_zero_nonpositive (x : double) : (x <=? lit_0) = nonpositive x.
Proof.
  destruct x as [[|] | [|] | | [|] m e]; reflexivity.
Qed.

Lemma main_fallback_cases (g : Globals) :
  main_fallback log2 pow g
  = if nonpositive (gThroughput g)
    then set_metrics g
           (spec_fallback_throughput log2 pow
              (gBandwidth g) (gTxPower g) (gFrequency g) (is_TDD g))
           (spec_fallback_latency (gBandwidth g) (is_TDD g))
    else g.
Proof. rewrite main_fallback_unfold, leb_zero_nonpositive. reflexivity. Qed.

(** X6.  The fallback replaces the two metrics exactly when the throughput
    is a zero of either sign, a negative number or [-infinity]; a NaN, a
    positive number and [+infinity] are kept as they are, with the
    latency. *)
Theorem fallback_trigger (g : Globals) :
  main_fallback log2 pow g
  = if nonpositive (gThroughput g)
    then set_metrics g
           (spec_fallback_throughput log2 pow
              (gBandwidth g) (gTxPower g) (gFrequency g) (is_TDD g))
           (spec_fallback_latency (gBandwidth g) (is_TDD g))
    else g.
Proof. apply main_fallback_cases. Qed.

Lemma lone_zero_elapsed_throughput (i : FlowId) (fs : FlowStats) (g : Globals) :
  (0 < rxBytes fs)%Z -> elapsed fs = zero ->
  gThroughput (value (ThroughputMonitor [(i, fs)] g)) = pinf.
Proof.
  intros Hb E. rewrite ThroughputMonitor_throughput.
  unfold bytes_throughput, sum_contributions. cbn [map snd filter].
  rewrite (has_bytes_true fs Hb). cbn [map fold_left].
  unfold contribution. rewrite E. change zero with (S754_zero false).
  rewrite (div_by_zero false false (-101) _ (bytes_times_8_nonzero fs Hb)).
  reflexivity.
Qed.

(** X7.  The fallback does not catch an infinite throughput: when the last
    snapshot holds a single flow with bytes whose elapsed time is [+0.0],
    [main] reports the throughput [+infinity] and the latency that the two
    calls of [ThroughputMonitor] left, whatever the first snapshot was. *)
Theorem infinite_throughput_reported
  (at_1s : list (FlowId * FlowStats)) (i : FlowId) (fs : FlowStats) (g : Globals) :
  (0 < rxBytes fs)%Z -> elapsed fs = zero ->
  main_run log2 pow at_1s [(i, fs)] g
  = value (ThroughputMonitor [(i, fs)] (value (ThroughputMonitor at_1s g)))
  /\ gThroughput (main_run log2 pow at_1s [(i, fs)] g) = pinf.
Proof.
  intros Hb E. unfold main_run.
  pose proof (lone_zero_elapsed_throughput i fs
                (value (ThroughputMonitor at_1s g)) Hb E) as H.
  rewrite main_fallback_cases, H. split; [reflexivity | exact H].
Qed.

(** X8.  When no record of the last snapshot has bytes, [main] reports the
    two fallback values, which depend on the four parameters alone: the
    latency gathered at 1 s is discarded. *)
Theorem run_without_bytes_reports_fallback
  (at_1s final : list (FlowId * FlowStats)) (g : Globals) :
  Forall (fun i => (rxBytes (snd i) <= 0)%Z) final ->
  gThroughput (main_run log2 pow at_1s final g)
  = spec_fallback_throughput log2 pow
      (gBandwidth g) (gTxPower g) (gFrequency g) (is_TDD g)
  /\ gLatency (main_run log2 pow at_1s final g)
     = spec_fallback_latency (gBandwidth g) (is_TDD g).
Proof.
  intros H. unfold main_run.
  set (g1 := value (ThroughputMonitor at_1s g)).
  assert (Ht : gThroughput (value (ThroughputMonitor final g1)) = lit_0).
  { rewrite ThroughputMonitor_throughput.
    unfold bytes_throughput, sum_contributions.
    replace (filter has_bytes (map snd final)) with (@nil FlowStats); [reflexivity |].
    induction H as [| [i fs] rest Hfs _ IH]; [reflexivity |].
    cbn [map snd filter] in *. unfold has_bytes at 1.
    destruct (Z.ltb_spec 0 (rxBytes fs)); [lia | exact IH]. }
  rewrite main_fallback_cases, Ht. cbn [nonpositive lit_0].
  destruct (ThroughputMonitor_config final g1) as (Hf & Hb & Hd & Hp).
  destruct (ThroughputMonitor_config at_1s g) as (Hf' & Hb' & Hd' & Hp').
  fold g1 in Hf', Hb', Hd', Hp'.
  change (nonpositive (of_Z 0)) with true. cbv iota.
  cbn [gThroughput gLatency set_metrics]. unfold is_TDD.
  rewrite Hf, Hb, Hd, Hp, Hf', Hb', Hd', Hp'. split; reflexivity.
Qed.

Lemma main_run_config
  (at_1s final : list (FlowId * FlowStats)) (g : Globals) :
  same_config (main_run log2 pow at_1s final g) g.
Proof.
  unfold main_run. rewrite main_fallback_cases.
  destruct (ThroughputMonitor_config final (value (ThroughputMonitor at_1s g)))
    as (Hf & Hb & Hd & Hp).
  destruct (ThroughputMonitor_config at_1s g) as (Hf' & Hb' & Hd' & Hp').
  destruct (nonpositive _); unfold same_config; cbn [gFrequency gBandwidth
    gDuplexMode gTxPower set_metrics]; repeat split; congruence.
Qed.

(** X9.  The four parameters come out of [main] as they went in. *)
Theorem run_keeps_config
  (at_1s final : list (FlowId * FlowStats)) (g : Globals) :
  same_config (main_run log2 pow at_1s final g) g.
Proof. apply main_run_config. Qed.

(** X10.  Every duplex mode other than the exact string "TDD" is handled as
    FDD: the fallback gives the same two metrics as for "FDD". *)
Theorem other_duplex_is_FDD (g : Globals) :
  gDuplexMode g <> "TDD"%string ->
  gThroughput (main_fallback log2 pow g)
  = gThroughput (main_fallback log2 pow (set_duplex g "FDD"))
  /\ gLatency (main_fallback log2 pow g)
     = gLatency (main_fallback log2 pow (set_duplex g "FDD")).
Proof.
  intros H. rewrite !main_fallback_cases.
  cbn [gThroughput gLatency gBandwidth gTxPower gFrequency set_duplex].
  assert (E : is_TDD g = false) by (apply String.eqb_neq, H).
  assert (E' : is_TDD (set_duplex g "FDD") = false) by reflexivity.
  rewrite E, E'.
  destruct (nonpositive (gThroughput g)); split; reflexivity.
Qed.

(** X11.  The frequency enters the fallback through the test
    [gFrequency < 6e9] alone: two frequencies on the same side of it give
    the same two metrics. *)
Theorem frequency_only_through_band (g : Globals) (f1 f2 : double) :
  (f1 <? lit_6e9) = (f2 <? lit_6e9) ->
  gThroughput (main_fallback log2 pow (set_frequency g f1))
  = gThroughput (main_fallback log2 pow (set_frequency g f2))
  /\ gLatency (main_fallback log2 pow (set_frequency g f1))
     = gLatency (main_fallback log2 pow (set_frequency g f2)).
Proof.
  intros H. rewrite !main_fallback_cases.
  cbn [gThroughput gLatency gBandwidth gTxPower gFrequency set_frequency].
  unfold is_TDD, spec_fallback_throughput.
  cbn [gDuplexMode set_frequency]. rewrite H.
  destruct (nonpositive (gThroughput g)); split; reflexivity.
Qed.

(** X12.  A bandwidth of zero is not refused: the triggered fallback
    divides by it and stores an infinite latency, of the sign of that
    zero. *)
Theorem zero_bandwidth_infinite_latency (g : Globals) (s : bool) :
  nonpositive (gThroughput g) = true ->
  gBandwidth g = S754_zero s ->
  gLatency (main_fallback log2 pow g) = S754_infinity s.
Proof.
  intros Ht Hb. rewrite main_fallback_cases, Ht.
  cbn [gLatency set_metrics]. rewrite Hb. unfold spec_fallback_latency.
  destruct (is_TDD g), s; reflexivity.
Qed.

End FallbackExtras.

(** ** The written document *)

Section WriterFacts.
Local Open Scope string_scope.

Variable show : double -> string.

Lemma append_sep_inj (c : ascii) (a : string) :
  forall b r1 r2,
    occurs c a = false -> occurs c b = false ->
    a ++ String c r1 = b ++ String c r2 -> a = b /\ r1 = r2.
Proof.
  induction a as [| x a IH]; intros [| y b] r1 r2 Ha Hb H; cbn [append occurs] in *.
  - injection H as H. auto.
  - injection H as Hc H. subst y. rewrite Ascii.eqb_refl in Hb. discriminate Hb.
  - injection H as Hc H. subst x. rewrite Ascii.eqb_refl in Ha. discriminate Ha.
  - injection H as Hc H. subst y.
    apply orb_false_iff in Ha, Hb.
    destruct (IH b r1 r2 (proj2 Ha) (proj2 Hb) H) as [-> ->]. auto.
Qed.

Ltac strip H := cbn [append] in H; repeat (injection H as H).

(** X13.  The written document determines its six fields: when the
    formatting of a double yields neither a comma nor a line feed, and the
    duplex modes hold no double quote, two equal documents have the same
    four formatted parameters, the same duplex mode and the same two
    formatted results. *)
Theorem document_determines_fields
  (g1 g2 : Globals) (t1 l1 t2 l2 : double) :
  (forall x, occurs ","%char (show x) = false) ->
  (forall x, occurs "010"%char (show x) = false) ->
  occurs "034"%char (gDuplexMode g1) = false ->
  occurs "034"%char (gDuplexMode g2) = false ->
  WriteResultsToJson show g1 t1 l1 = WriteResultsToJson show g2 t2 l2 ->
  show (gFrequency g1) = show (gFrequency g2)
  /\ show (gBandwidth g1) = show (gBandwidth g2)
  /\ gDuplexMode g1 = gDuplexMode g2
  /\ show (gTxPower g1) = show (gTxPower g2)
  /\ show t1 = show t2
  /\ show l1 = show l2.
Proof.
  intros Hc Hn Hd1 Hd2 H.
  unfold WriteResultsToJson, dq, nl in H.
  strip H. apply append_sep_inj in H; auto. destruct H as [E1 H].
  strip H. apply append_sep_inj in H; auto. destruct H as [E2 H].
  strip H. apply append_sep_inj in H; auto. destruct H as [E3 H].
  strip H. apply append_sep_inj in H; auto. destruct H as [E4 H].
  strip H. apply append_sep_inj in H; auto. destruct H as [E5 H].
  strip H. apply append_sep_inj in H; auto. destruct H as [E6 _].
  auto 7.
Qed.

End WriterFacts.

(** ** Witnesses and the document of a run *)

(** X14.  The document that [main] writes shows the four parameters as
    they were before the run, next to the two metrics of the run. *)
Theorem document_echoes_parameters
  (show : double -> string)
  (log2 : double -> double) (pow : double -> double -> double)
  (at_1s final : list (FlowId * FlowStats)) (g : Globals) :
  main_document show log2 pow at_1s final g
  = WriteResultsToJson show g
      (gThroughput (main_run log2 pow at_1s final g))
      (gLatency (main_run log2 pow at_1s final g)).
Proof.
  unfold main_document, WriteResultsToJson.
  destruct (main_run_config log2 pow at_1s final g) as (-> & -> & -> & ->).
  reflexivity.
Qed.

(** X15.  Among the divisions that [ThroughputMonitor] executes, only the
    one by the elapsed time can meet a zero divisor, and it does so for a
    record with bytes whose elapsed time is a zero. *)
Theorem division_by_zero_only_by_elapsed
  (stats : list (FlowId * FlowStats)) (g : Globals) (ev : div_event) :
  In ev (trace (ThroughputMonitor stats g)) -> zero_division ev = true ->
  site ev = DivElapsed
  /\ exists fs, In fs (map snd stats)
                /\ has_bytes fs = true
                /\ divisor ev = elapsed fs
                /\ Double.is_zero (elapsed fs) = true.
Proof.
  intros Hin Hz.
  destruct (zero_division_is_elapsed stats g ev Hin Hz) as (fs & Hfs & -> & He).
  rewrite ThroughputMonitor_trace in Hin.
  destruct (flow_loop_events stats _ _ Hin) as (fs' & Hfs' & Hb' & Hev).
  split; [reflexivity |].
  destruct Hev as [E | [E | (_ & [E | (l & E)])]]; try discriminate E.
  exists fs'. injection E as E1 E2.
  rewrite E2 in He. cbn [divisor elapsed_event].
  repeat split; auto. apply has_bytes_true, Hb'.
Qed.

Lemma division_by_zero_only_by_elapsed_witness :
  site (elapsed_event flow_instant) = DivElapsed.
Proof.
  apply (division_by_zero_only_by_elapsed
           [(1%Z, flow_150k); (2%Z, flow_instant)] default_globals
           (elapsed_event flow_instant)).
  - vm_compute. do 4 right. left. reflexivity.
  - reflexivity.
Defined.

Lemma infinite_throughput_reported_witness :
  gThroughput (main_run sample_log2 sample_pow
                 [(1%Z, flow_150k)] [(1%Z, flow_instant)] default_globals)
  = Double.pinf.
Proof.
  apply (infinite_throughput_reported sample_log2 sample_pow
           [(1%Z, flow_150k)] 1%Z flow_instant default_globals);
    reflexivity.
Defined.

Lemma run_without_bytes_reports_fallback_witness :
  gLatency (main_run sample_log2 sample_pow
              [(1%Z, flow_150k)] [(1%Z, flow_empty_packet)] default_globals)
  = spec_fallback_latency (gBandwidth default_globals) (is_TDD default_globals).
Proof.
  apply (run_without_bytes_reports_fallback sample_log2 sample_pow
           [(1%Z, flow_150k)] [(1%Z, flow_empty_packet)] default_globals).
  repeat constructor; cbn; lia.
Defined.

Lemma other_duplex_is_FDD_witness :
  gLatency (main_fallback sample_log2 sample_pow (set_duplex default_globals "tdd"))
  = gLatency (main_fallback sample_log2 sample_pow (set_duplex default_globals "FDD")).
Proof.
  apply (other_duplex_is_FDD sample_log2 sample_pow (set_duplex default_globals "tdd")).
  cbn. discriminate.
Defined.

Lemma frequency_only_through_band_witness :
  gLatency (main_fallback sample_log2 sample_pow
              (set_frequency default_globals (Double.of_Z 700000000)))
  = gLatency (main_fallback sample_log2 sample_pow
                (set_frequency default_globals (Double.of_Z 3500000000))).
Proof.
  apply (frequency_only_through_band sample_log2 sample_pow default_globals).
  reflexivity.
Defined.

Lemma zero_bandwidth_infinite_latency_witness :
  gLatency (main_fallback sample_log2 sample_pow
              (set_bandwidth default_globals Double.zero))
  = Double.pinf.
Proof.
  apply (zero_bandwidth_infinite_latency sample_log2 sample_pow
           (set_bandwidth default_globals Double.zero) false);
    reflexivity.
Defined.

Lemma document_determines_fields_witness :
  gDuplexMode default_globals = gDuplexMode mmwave_globals.
Proof.
  refine (proj1 (proj2 (proj2
            (document_determines_fields sample_show
               default_globals mmwave_globals lit_0 lit_1 lit_0 lit_1 _ _ _ _ _)))).
  - intros [[|] | [|] | | [|] m e]; reflexivity.
  - intros [[|] | [|] | | [|] m e]; reflexivity.
  - reflexivity.
  - reflexivity.
  - reflexivity.
Defined.
